(** * limesurveyrc2api: the participant/token client [_Token]

    A shallow embedding of [limesurveyrc2api/_token.py].  Each of the five
    methods of the class [_Token] builds an [OrderedDict] of parameters,
    hands it to [self.api.query], and inspects the decoded response.

    The embedding follows the Python text:
    - responses and arguments are dynamically typed JSON-like values;
    - a Python [dict] is a finite map (each key held once);
    - an [OrderedDict] built from a list of pairs is that list of pairs,
      in insertion order;
    - methods run in a state-and-exception monad over the client object,
      so that attribute reads, the transport call, [raise] and [assert]
      appear where the source has them. *)

From stdpp Require Import gmap strings list fin_maps.
From Stdlib Require Import ZArith.

Set Warnings "-register-all".

(** ** Values *)

(** What the JSON decoder of the transport can hand back, and what callers
    pass in: [None], booleans, integers, strings, lists and dicts with
    string keys.  No branch of the client looks inside a number, so floats
    are left out. *)
Inductive value : Type :=
  | VNone
  | VBool (b : bool)
  | VInt (z : Z)
  | VStr (s : string)
  | VList (l : list value)
  | VDict (d : gmap string value).

(** [OrderedDict([(k1, v1); ...])]: the pairs in insertion order. *)
Abbreviation OrderedDict := (list (string * value)).

(** [type(v) is dict] *)
Definition type_is_dict (v : value) : bool :=
  match v with VDict _ => true | _ => false end.

(** [type(v) is list] *)
Definition type_is_list (v : value) : bool :=
  match v with VList _ => true | _ => false end.

(** [k in v].  Every use in the source sits to the right of
    [type(v) is dict and ...], so it is only ever evaluated on a dict. *)
Definition contains (k : string) (v : value) : bool :=
  match v with
  | VDict d => match d !! k with Some _ => true | None => false end
  | _ => false
  end.

(** [v == s] for a string literal [s]: among the values above only an
    equal [str] compares equal to a [str]. *)
Definition eq_str (v : value) (s : string) : bool :=
  match v with VStr t => String.eqb t s | _ => false end.

(** Truth value of [v], as [or] tests it. *)
Definition truthy (v : value) : bool :=
  match v with
  | VNone => false
  | VBool b => b
  | VInt z => negb (Z.eqb z 0)
  | VStr s => negb (String.eqb s "")
  | VList l => match l with [] => false | _ => true end
  | VDict d => negb (bool_decide (d = ∅))
  end.

(** [a or b] *)
Definition py_or (a b : value) : value := if truthy a then a else b.

(** ** Exceptions and outcomes *)

(** Modelled from the spec: the class [LimeSurveyError] is imported from
    [limesurveyrc2api.exceptions], which is not part of the source at hand.
    The spec's RemoteOperationError "carries the method name and status
    string verbatim", so the exception is the pair of its two constructor
    arguments.  [AssertionError], [KeyError] and [TypeError] are Python's
    own; [TransportError] stands for whatever [api.query] itself raises. *)
Inductive exn : Type :=
  | LimeSurveyError (method : string) (status : value)
  | AssertionError
  | KeyError (k : string)
  | TypeError
  | TransportError (what : string).

Inductive outcome (A : Type) : Type :=
  | Return (a : A)
  | Raise (e : exn).
Arguments Return {A} a.
Arguments Raise {A} e.

(** ** The objects *)

(** The api object: its [session_key] attribute and whatever further state
    the transport keeps ([conn]). *)
Record Api (T : Type) : Type := MkApi { session_key : value; conn : T }.
Arguments MkApi {T}.
Arguments session_key {T}.
Arguments conn {T}.

(** [class _Token]: [__init__] stores the api object in [self.api]. *)
Record _Token (T : Type) : Type := Mk_Token { api : Api T }.
Arguments Mk_Token {T}.
Arguments api {T}.

(** A method body: from the client object to an outcome and the client
    object afterwards. *)
Definition M (T A : Type) : Type := _Token T -> outcome A * _Token T.

#[global] Instance M_ret {T} : MRet (M T) :=
  fun A a self => (Return a, self).

#[global] Instance M_bind {T} : MBind (M T) :=
  fun A B f m self =>
    match m self with
    | (Return a, self') => f a self'
    | (Raise e, self') => (Raise e, self')
    end.

#[global] Instance M_throw {T} : MThrow exn (M T) :=
  fun A e self => (Raise e, self).

(** [assert b], as Python runs it without [-O]. *)
Definition assert_ {T} (b : bool) : M T () :=
  if b then mret () else mthrow AssertionError.

(** [if b: body] (no else branch) *)
Definition when {T} (b : bool) (body : M T ()) : M T () :=
  if b then body else mret ().

(** [for x in l: body(x)] *)
Fixpoint for_each {T A} (l : list A) (body : A -> M T ()) : M T () :=
  match l with
  | [] => mret ()
  | x :: l' => body x ;; for_each l' body
  end.

(** [v[k]] *)
Definition getitem {T} (v : value) (k : string) : M T value :=
  match v with
  | VDict d => match d !! k with
               | Some x => mret x
               | None => mthrow (KeyError k)
               end
  | _ => mthrow TypeError
  end.

(** ** The methods of [_Token] *)

Section Client.
Context {T : Type}.

(** The transport collaborator: [api.query(method=..., params=...)],
    run on the api object.  It returns the decoded response or raises,
    and leaves the api object in a state of its choosing. *)
Variable query : string -> OrderedDict -> Api T -> outcome value * Api T.

(** [self.api.session_key] *)
Definition self_api_session_key : M T value :=
  fun self => (Return (session_key (api self)), self).

(** [self.api.query(method=method, params=params)] *)
Definition self_api_query (method : string) (params : OrderedDict)
  : M T value :=
  fun self =>
    let '(r, a) := query method params (api self) in (r, Mk_Token a).

Definition get_summary (survey_id : value) : M T value :=
  let method := "get_summary" in
  sSessionKey ← self_api_session_key;
  let params := [("sSessionKey", sSessionKey);
                 ("iSurveyID", survey_id)] in
  response ← self_api_query method params;
  (if type_is_dict response && contains "status" response
   then status ← getitem response "status";
        mthrow (LimeSurveyError method status)
   else mret ());;
  mret response.

Definition list_participants
    (survey_id start limit ignore_token_used attributes conditions : value)
  : M T value :=
  let method := "list_participants" in
  let conditions := py_or conditions (VList []) in
  sSessionKey ← self_api_session_key;
  let params := [("sSessionKey", sSessionKey);
                 ("iSurveyID", survey_id);
                 ("iStart", start);
                 ("iLimit", limit);
                 ("bUnused", ignore_token_used);
                 ("aAttributes", attributes);
                 ("aConditions", conditions)] in
  response ← self_api_query method params;
  (if type_is_dict response && contains "status" response
   then status ← getitem response "status";
        mthrow (LimeSurveyError method status)
   else mret ());;
  mret response.

(** [list_participants(survey_id)]: every optional argument at its
    default, [start=0, limit=1000, ignore_token_used=False,
    attributes=False, conditions=None]. *)
Definition list_participants_default (survey_id : value) : M T value :=
  list_participants survey_id
    (VInt 0) (VInt 1000) (VBool false) (VBool false) VNone.

Definition add_participants
    (survey_id participant_data create_token_key : value) : M T value :=
  let method := "add_participants" in
  sSessionKey ← self_api_session_key;
  let params := [("sSessionKey", sSessionKey);
                 ("iSurveyID", survey_id);
                 ("aParticipantData", participant_data);
                 ("bCreateToken", create_token_key)] in
  response ← self_api_query method params;
  let response_type_is_dict := type_is_dict response in
  let response_type_is_list := type_is_list response in
  (if response_type_is_dict && contains "status" response
   then status ← getitem response "status";
        let error_messages := ["Error: Invalid survey ID";
                               "No token table";
                               "No permission"] in
        for_each error_messages (fun message =>
          when (eq_str status message)
               (mthrow (LimeSurveyError method status)))
   else mret ());;
  assert_ response_type_is_list;;
  mret response.

(** [add_participants(survey_id, participant_data)]:
    [create_token_key=True]. *)
Definition add_participants_default (survey_id participant_data : value)
  : M T value :=
  add_participants survey_id participant_data (VBool true).

Definition delete_participants (survey_id tokens : value) : M T value :=
  let method := "delete_participants" in
  sSessionKey ← self_api_session_key;
  let params := [("sSessionKey", sSessionKey);
                 ("iSurveyID", survey_id);
                 ("aTokenIDs", tokens)] in
  response ← self_api_query method params;
  let response_type_is_dict := type_is_dict response in
  (if response_type_is_dict && contains "status" response
   then status ← getitem response "status";
        let error_messages := ["Error: Invalid survey ID";
                               "Error: No token table";
                               "No permission";
                               "Invalid Session Key"] in
        for_each error_messages (fun message =>
          when (eq_str status message)
               (mthrow (LimeSurveyError method status)))
   else mret ());;
  assert_ response_type_is_dict;;
  mret response.

Definition get_participant_properties (survey_id token_id : value)
  : M T value :=
  let method := "get_participant_properties" in
  sSessionKey ← self_api_session_key;
  let params := [("sSessionKey", sSessionKey);
                 ("iSurveyID", survey_id);
                 ("aTokenQueryProperties",
                  VDict {[ "tid" := token_id ]})] in
  response ← self_api_query method params;
  let response_type_is_dict := type_is_dict response in
  (if response_type_is_dict && contains "status" response
   then status ← getitem response "status";
        let error_messages := ["Error: Invalid survey ID";
                               "Error: No token table";
                               "Error: Invalid tokenid";
                               "No permission";
                               "Invalid Session Key"] in
        for_each error_messages (fun message =>
          when (eq_str status message)
               (mthrow (LimeSurveyError method status)))
   else mret ());;
  assert_ response_type_is_dict;;
  mret response.

(** *** One name for every call

    A call of one of the five methods with its actual arguments, so that
    statements about "every operation" can quantify over calls. *)
Inductive operation : Type :=
  | GetSummary (survey_id : value)
  | ListParticipants
      (survey_id start limit ignore_token_used attributes conditions : value)
  | AddParticipants (survey_id participant_data create_token_key : value)
  | DeleteParticipants (survey_id tokens : value)
  | GetParticipantProperties (survey_id token_id : value).

Definition invoke (op : operation) : M T value :=
  match op with
  | GetSummary survey_id => get_summary survey_id
  | ListParticipants survey_id start limit ignore_token_used attributes
      conditions =>
      list_participants survey_id start limit ignore_token_used attributes
        conditions
  | AddParticipants survey_id participant_data create_token_key =>
      add_participants survey_id participant_data create_token_key
  | DeleteParticipants survey_id tokens =>
      delete_participants survey_id tokens
  | GetParticipantProperties survey_id token_id =>
      get_participant_properties survey_id token_id
  end.

End Client.

(** ** A recording transport stub

    The stub answers every call from a fixed table [reply] and appends the
    call it received to its log, the way a test double for [api.query]
    does.  It never touches [session_key]. *)

Abbreviation call_log := (list (string * OrderedDict)).

Definition stub (reply : string -> OrderedDict -> outcome value)
  : string -> OrderedDict -> Api call_log -> outcome value * Api call_log :=
  fun method params a =>
    (reply method params,
     MkApi (session_key a) (conn a ++ [(method, params)])).

(** A stub that answers every call with the same response. *)
Definition always (response : value)
  : string -> OrderedDict -> outcome value :=
  fun _ _ => Return response.

(** A fresh client over a stubbed api object with session key ["k"]. *)
Definition fresh : _Token call_log := Mk_Token (MkApi (VStr "k") []).

(** ** Reading a response *)

(** The status carried by an error envelope: the value under ["status"]
    when the response is a dict holding that key. *)
Definition status_of (response : value) : option value :=
  match response with
  | VDict d => d !! "status"
  | _ => None
  end.

(** The method name each call puts on the wire. *)
Definition method_name (op : operation) : string :=
  match op with
  | GetSummary _ => "get_summary"
  | ListParticipants _ _ _ _ _ _ => "list_participants"
  | AddParticipants _ _ _ => "add_participants"
  | DeleteParticipants _ _ => "delete_participants"
  | GetParticipantProperties _ _ => "get_participant_properties"
  end.

(** The parameters each call puts on the wire, given the session key. *)
Definition request (op : operation) (key : value) : OrderedDict :=
  match op with
  | GetSummary survey_id =>
      [("sSessionKey", key); ("iSurveyID", survey_id)]
  | ListParticipants survey_id start limit ignore_token_used attributes
      conditions =>
      [("sSessionKey", key); ("iSurveyID", survey_id); ("iStart", start);
       ("iLimit", limit); ("bUnused", ignore_token_used);
       ("aAttributes", attributes);
       ("aConditions", py_or conditions (VList []))]
  | AddParticipants survey_id participant_data create_token_key =>
      [("sSessionKey", key); ("iSurveyID", survey_id);
       ("aParticipantData", participant_data);
       ("bCreateToken", create_token_key)]
  | DeleteParticipants survey_id tokens =>
      [("sSessionKey", key); ("iSurveyID", survey_id); ("aTokenIDs", tokens)]
  | GetParticipantProperties survey_id token_id =>
      [("sSessionKey", key); ("iSurveyID", survey_id);
       ("aTokenQueryProperties", VDict {[ "tid" := token_id ]})]
  end.

(** The error strings a call recognises: [None] when every status is
    raised, [Some l] when only the statuses listed in [l] are. *)
Definition error_messages (op : operation) : option (list string) :=
  match op with
  | GetSummary _ | ListParticipants _ _ _ _ _ _ => None
  | AddParticipants _ _ _ =>
      Some ["Error: Invalid survey ID"; "No token table"; "No permission"]
  | DeleteParticipants _ _ =>
      Some ["Error: Invalid survey ID"; "Error: No token table";
            "No permission"; "Invalid Session Key"]
  | GetParticipantProperties _ _ =>
      Some ["Error: Invalid survey ID"; "Error: No token table";
            "Error: Invalid tokenid"; "No permission"; "Invalid Session Key"]
  end.

(** What the closing [assert] of a call tests ([true] where the method has
    no assert). *)
Definition asserted_shape (op : operation) (response : value) : bool :=
  match op with
  | GetSummary _ | ListParticipants _ _ _ _ _ _ => true
  | AddParticipants _ _ _ => type_is_list response
  | DeleteParticipants _ _ | GetParticipantProperties _ _ =>
      type_is_dict response
  end.

(** The success shape each method documents: a dict for [get_summary],
    [delete_participants] and [get_participant_properties], a list for
    [list_participants] and [add_participants]. *)
Definition expected_shape (op : operation) (response : value) : bool :=
  match op with
  | GetSummary _ | DeleteParticipants _ _ | GetParticipantProperties _ _ =>
      type_is_dict response
  | ListParticipants _ _ _ _ _ _ | AddParticipants _ _ _ =>
      type_is_list response
  end.

(** [status] is one of the strings of [l]. *)
Definition listed (l : list string) (status : value) : bool :=
  existsb (eq_str status) l.

(** The outcome of a call as a function of the decoded response alone. *)
Definition verdict (op : operation) (response : value) : outcome value :=
  let checked :=
    if asserted_shape op response
    then Return response else Raise AssertionError in
  match status_of response, error_messages op with
  | Some status, None => Raise (LimeSurveyError (method_name op) status)
  | Some status, Some l =>
      if listed l status
      then Raise (LimeSurveyError (method_name op) status)
      else checked
  | None, _ => checked
  end.

(** ** Construction *)

(** [_Token.__init__(self, api)]: [self.api = api]. *)
Definition __init__ {T} (api : Api T) : _Token T := Mk_Token api.

(** The survey a call addresses: the first positional argument of every
    method. *)
Definition survey_id_of (op : operation) : value :=
  match op with
  | GetSummary survey_id => survey_id
  | ListParticipants survey_id _ _ _ _ _ => survey_id
  | AddParticipants survey_id _ _ => survey_id
  | DeleteParticipants survey_id _ => survey_id
  | GetParticipantProperties survey_id _ => survey_id
  end.

(** ** Sample responses *)

(** An error envelope every method with a list recognises. *)
Definition invalid_survey : value :=
  VDict {[ "status" := VStr "Error: Invalid survey ID" ]}.

(** A status-bearing dict whose status no list holds. *)
Definition status_ok : value := VDict {[ "status" := VStr "OK" ]}.

(** A summary as [get_summary] documents it. *)
Definition summary : value :=
  VDict (list_to_map
    [("token_count", VStr "3"); ("token_invalid", VStr "0");
     ("token_sent", VStr "2"); ("token_opted_out", VStr "0");
     ("token_completed", VStr "1")]).

(** A list of participant records. *)
Definition participants : value :=
  VList [VDict (list_to_map [("tid", VStr "1"); ("token", VStr "abc")])].

(** The answer to a deletion of tokens 1, 2 and 3. *)
Definition deletions : value :=
  VDict (list_to_map
    [("1", VStr "Deleted"); ("2", VStr "Invalid"); ("3", VStr "Deleted")]).

(** * Properties *)

(** ** How a method body runs *)

Lemma contains_status_of (response : value) :
  type_is_dict response && contains "status" response
  = match status_of response with Some _ => true | None => false end.
Proof. destruct response; simpl; try reflexivity. Qed.

Lemma getitem_status {T} (response status : value) (self : _Token T) :
  status_of response = Some status ->
  getitem response "status" self = (Return status, self).
Proof.
  destruct response; simpl; try discriminate.
  intros ->. reflexivity.
Qed.

(** The loop over the known error strings raises exactly when the status is
    one of them, and then with the status it was given. *)
Lemma for_each_listed {T} (method : string) (status : value)
    (l : list string) (self : _Token T) :
  for_each l (fun message =>
    when (eq_str status message)
         (mthrow (LimeSurveyError method status))) self
  = (if listed l status
     then Raise (LimeSurveyError method status) else Return (), self).
Proof.
  induction l as [|message l IH]; simpl; [reflexivity|].
  unfold mbind, M_bind, when.
  destruct (eq_str status message); simpl; [reflexivity|].
  exact IH.
Qed.

(** The guard of [get_summary] and [list_participants]. *)
Lemma any_status_block {T} (method : string) (response : value)
    (self : _Token T) :
  (if type_is_dict response && contains "status" response
   then status ← getitem response "status";
        mthrow (LimeSurveyError method status)
   else mret ()) self
  = (match status_of response with
     | Some status => Raise (LimeSurveyError method status)
     | None => Return ()
     end, self).
Proof.
  rewrite contains_status_of.
  destruct (status_of response) as [status|] eqn:Hst; [|reflexivity].
  unfold mbind, M_bind. rewrite (getitem_status _ _ _ Hst). reflexivity.
Qed.

(** The guard of the three methods that keep a list of error strings. *)
Lemma listed_status_block {T} (method : string) (l : list string)
    (response : value) (self : _Token T) :
  (if type_is_dict response && contains "status" response
   then status ← getitem response "status";
        for_each l (fun message =>
          when (eq_str status message)
               (mthrow (LimeSurveyError method status)))
   else mret ()) self
  = (match status_of response with
     | Some status =>
         if listed l status
         then Raise (LimeSurveyError method status) else Return ()
     | None => Return ()
     end, self).
Proof.
  rewrite contains_status_of.
  destruct (status_of response) as [status|] eqn:Hst; [|reflexivity].
  unfold mbind, M_bind. rewrite (getitem_status _ _ _ Hst).
  apply for_each_listed.
Qed.

Section Run.
Context {T : Type}.
Variable query : string -> OrderedDict -> Api T -> outcome value * Api T.

(** Every call is one [query] with the method name and parameters of
    [request], followed by the reading of the response in [verdict]; the
    client object afterwards holds the api object as [query] left it. *)
Lemma invoke_run (op : operation) (self : _Token T) :
  invoke query op self
  = let '(r, a) :=
      query (method_name op) (request op (session_key (api self)))
        (api self) in
    (match r with
     | Return response => verdict op response
     | Raise e => Raise e
     end, Mk_Token a).
Proof.
  destruct op; cbn [invoke method_name request];
    [ unfold get_summary | unfold list_participants
    | unfold add_participants | unfold delete_participants
    | unfold get_participant_properties ];
    cbv zeta; unfold mbind at 1 2; unfold M_bind at 1 2;
    unfold self_api_session_key, self_api_query;
    match goal with |- context [query ?m ?p ?a] =>
      destruct (query m p a) as [[response|e] a'] end;
    try reflexivity;
    unfold mbind at 1; unfold M_bind at 1;
    first [ rewrite any_status_block | rewrite listed_status_block ];
    unfold verdict; cbn [error_messages method_name asserted_shape];
    destruct (status_of response) as [status|]; try reflexivity;
    try (destruct (listed _ status); try reflexivity);
    destruct response; reflexivity.
Qed.

(** A transport response is read by [verdict]. *)
Lemma invoke_outcome (op : operation) (self : _Token T) (response : value) :
  fst (query (method_name op) (request op (session_key (api self)))
         (api self)) = Return response ->
  fst (invoke query op self) = verdict op response.
Proof.
  intros H. rewrite invoke_run.
  destruct (query _ _ _) as [r a]. simpl in H. subst r. reflexivity.
Qed.

(** The api object after a call is the one the transport left. *)
Lemma invoke_state (op : operation) (self : _Token T) :
  snd (invoke query op self)
  = Mk_Token (snd (query (method_name op)
                     (request op (session_key (api self))) (api self))).
Proof. rewrite invoke_run. destruct (query _ _ _) as [r a]. reflexivity. Qed.

End Run.

(** ** Reading [verdict] *)

Lemma eq_str_spec (status : value) (s : string) :
  eq_str status s = true <-> status = VStr s.
Proof.
  destruct status; simpl; try (split; [discriminate | intros [=]]).
  rewrite String.eqb_eq. split; [intros ->; reflexivity | intros [=]; assumption].
Qed.

Lemma listed_spec (l : list string) (status : value) :
  listed l status = true <-> exists s, status = VStr s /\ In s l.
Proof.
  unfold listed. rewrite existsb_exists. split.
  - intros (s & Hin & Heq). apply eq_str_spec in Heq. eauto.
  - intros (s & -> & Hin). exists s. split; [assumption|].
    apply eq_str_spec. reflexivity.
Qed.

Lemma not_listed_spec (l : list string) (status : value) :
  listed l status = false <-> ~ exists s, status = VStr s /\ In s l.
Proof.
  rewrite <- listed_spec. destruct (listed l status); split; congruence.
Qed.

(** A status envelope is a dict, never a list. *)
Lemma status_of_is_dict (response status : value) :
  status_of response = Some status ->
  type_is_dict response = true /\ type_is_list response = false.
Proof. destruct response; simpl; try discriminate. auto. Qed.

(** With a list of error strings, the domain error is raised exactly for
    the listed statuses, and carries the method name and the status. *)
Lemma verdict_raises_iff (op : operation) (l : list string)
    (response : value) (method : string) (status : value) :
  error_messages op = Some l ->
  verdict op response = Raise (LimeSurveyError method status)
  <-> method = method_name op /\ status_of response = Some status
      /\ listed l status = true.
Proof.
  intros Hl. unfold verdict. rewrite Hl.
  destruct (status_of response) as [st|] eqn:Hst; cbv zeta.
  - destruct (listed l st) eqn:Hin.
    + split.
      * intros [= <- <-]. auto.
      * intros (-> & [= ->] & _). reflexivity.
    + split.
      * destruct (asserted_shape op response); discriminate.
      * intros (_ & [= ->] & Hin'). congruence.
  - split.
    + destruct (asserted_shape op response); discriminate.
    + intros (_ & [=] & _).
Qed.

(** Without one, every status is raised. *)
Lemma verdict_any_status (op : operation) (response status : value) :
  error_messages op = None ->
  status_of response = Some status ->
  verdict op response = Raise (LimeSurveyError (method_name op) status).
Proof. intros Hl Hst. unfold verdict. rewrite Hl, Hst. reflexivity. Qed.

(** A response without a status is returned as it is when it passes the
    assert, and fails the assert otherwise. *)
Lemma verdict_no_status (op : operation) (response : value) :
  status_of response = None ->
  verdict op response
  = if asserted_shape op response
    then Return response else Raise AssertionError.
Proof.
  intros Hst. unfold verdict. rewrite Hst.
  destruct (error_messages op); reflexivity.
Qed.

(** An unlisted status falls through to the assert. *)
Lemma verdict_unlisted (op : operation) (l : list string)
    (response status : value) :
  error_messages op = Some l ->
  status_of response = Some status ->
  listed l status = false ->
  verdict op response
  = if asserted_shape op response
    then Return response else Raise AssertionError.
Proof.
  intros Hl Hst Hin. unfold verdict. rewrite Hl, Hst, Hin. reflexivity.
Qed.

(** ** Error envelopes *)

Section Envelopes.
Context {T : Type}.
Variable query : string -> OrderedDict -> Api T -> outcome value * Api T.
Variable self : _Token T.

(** C1: in [get_summary] and in [list_participants], whenever the transport
    answers with a dict that holds a ["status"] key, the call raises
    [LimeSurveyError] with the method's name and the value found under
    ["status"], whatever that value is. *)
Theorem status_envelope_always_raises
    (survey_id start limit ignore_token_used attributes conditions : value)
    (d : gmap string value) (status : value) :
  d !! "status" = Some status ->
  (fst (query "get_summary"
          [("sSessionKey", session_key (api self));
           ("iSurveyID", survey_id)] (api self)) = Return (VDict d) ->
   fst (get_summary query survey_id self)
   = Raise (LimeSurveyError "get_summary" status))
  /\ (fst (query "list_participants"
             [("sSessionKey", session_key (api self));
              ("iSurveyID", survey_id); ("iStart", start);
              ("iLimit", limit); ("bUnused", ignore_token_used);
              ("aAttributes", attributes);
              ("aConditions", py_or conditions (VList []))] (api self))
      = Return (VDict d) ->
      fst (list_participants query survey_id start limit ignore_token_used
             attributes conditions self)
      = Raise (LimeSurveyError "list_participants" status)).
Proof.
  intros Hst. split; intros Hq.
  - etransitivity;
      [exact (invoke_outcome query (GetSummary survey_id) self _ Hq)|].
    apply verdict_any_status; [reflexivity | exact Hst].
  - etransitivity;
      [exact (invoke_outcome query
                (ListParticipants survey_id start limit ignore_token_used
                   attributes conditions) self _ Hq)|].
    apply verdict_any_status; [reflexivity | exact Hst].
Qed.

(** C2: [add_participants] raises [LimeSurveyError] exactly when the
    response is a dict whose ["status"] is one of "Error: Invalid survey
    ID", "No token table", "No permission", and the error then carries the
    method's name and that status; a response with any other ["status"]
    raises no [LimeSurveyError] and fails [assert response_type is list]. *)
Theorem add_participants_raises_iff
    (survey_id participant_data create_token_key response : value) :
  fst (query "add_participants"
         [("sSessionKey", session_key (api self)); ("iSurveyID", survey_id);
          ("aParticipantData", participant_data);
          ("bCreateToken", create_token_key)] (api self)) = Return response ->
  (forall method status,
      fst (add_participants query survey_id participant_data
             create_token_key self) = Raise (LimeSurveyError method status)
      <-> method = "add_participants"
          /\ status_of response = Some status
          /\ exists s, status = VStr s
               /\ In s ["Error: Invalid survey ID"; "No token table";
                        "No permission"])
  /\ (forall status,
        status_of response = Some status ->
        ~ (exists s, status = VStr s
             /\ In s ["Error: Invalid survey ID"; "No token table";
                      "No permission"]) ->
        fst (add_participants query survey_id participant_data
               create_token_key self) = Raise AssertionError).
Proof.
  intros Hq.
  pose proof (invoke_outcome query
    (AddParticipants survey_id participant_data create_token_key)
    self _ Hq) as Hrun.
  cbn [invoke] in Hrun. rewrite Hrun. split.
  - intros method status. rewrite <- listed_spec.
    apply verdict_raises_iff. reflexivity.
  - intros status Hst Hnot. apply not_listed_spec in Hnot.
    rewrite (verdict_unlisted
      (AddParticipants survey_id participant_data create_token_key)
      _ _ _ eq_refl Hst Hnot).
    cbn [asserted_shape].
    destruct (status_of_is_dict _ _ Hst) as [_ ->]. reflexivity.
Qed.

(** C4: [delete_participants] raises [LimeSurveyError] exactly when the
    response is a dict whose ["status"] is one of "Error: Invalid survey
    ID", "Error: No token table", "No permission", "Invalid Session Key",
    and the error then carries the method's name and that status. *)
Theorem delete_participants_raises_iff
    (survey_id tokens response : value) (method : string) (status : value) :
  fst (query "delete_participants"
         [("sSessionKey", session_key (api self)); ("iSurveyID", survey_id);
          ("aTokenIDs", tokens)] (api self)) = Return response ->
  fst (delete_participants query survey_id tokens self)
  = Raise (LimeSurveyError method status)
  <-> method = "delete_participants"
      /\ status_of response = Some status
      /\ exists s, status = VStr s
           /\ In s ["Error: Invalid survey ID"; "Error: No token table";
                    "No permission"; "Invalid Session Key"].
Proof.
  intros Hq.
  pose proof (invoke_outcome query (DeleteParticipants survey_id tokens)
    self _ Hq) as Hrun.
  cbn [invoke] in Hrun. rewrite Hrun, <- listed_spec.
  apply verdict_raises_iff. reflexivity.
Qed.

(** C5: [get_participant_properties] raises [LimeSurveyError] exactly when
    the response is a dict whose ["status"] is one of "Error: Invalid survey
    ID", "Error: No token table", "Error: Invalid tokenid", "No permission",
    "Invalid Session Key", and the error then carries the method's name and
    that status. *)
Theorem get_participant_properties_raises_iff
    (survey_id token_id response : value) (method : string)
    (status : value) :
  fst (query "get_participant_properties"
         [("sSessionKey", session_key (api self)); ("iSurveyID", survey_id);
          ("aTokenQueryProperties", VDict {[ "tid" := token_id ]})]
         (api self)) = Return response ->
  fst (get_participant_properties query survey_id token_id self)
  = Raise (LimeSurveyError method status)
  <-> method = "get_participant_properties"
      /\ status_of response = Some status
      /\ exists s, status = VStr s
           /\ In s ["Error: Invalid survey ID"; "Error: No token table";
                    "Error: Invalid tokenid"; "No permission";
                    "Invalid Session Key"].
Proof.
  intros Hq.
  pose proof (invoke_outcome query
    (GetParticipantProperties survey_id token_id) self _ Hq) as Hrun.
  cbn [invoke] in Hrun. rewrite Hrun, <- listed_spec.
  apply verdict_raises_iff. reflexivity.
Qed.

End Envelopes.

(** ** What a call returns *)

(** A call that returns hands back the response itself: the response passed
    the method's assert, and if it carries a status, the method keeps a
    list of error strings and the status is not on it. *)
Lemma verdict_return (op : operation) (response v : value) :
  verdict op response = Return v ->
  v = response
  /\ asserted_shape op response = true
  /\ forall status, status_of response = Some status ->
       exists l, error_messages op = Some l /\ listed l status = false.
Proof.
  unfold verdict.
  destruct (status_of response) as [st|], (error_messages op) as [l|];
    cbv zeta; try discriminate;
    try destruct (listed l st) eqn:Hin; try discriminate;
    destruct (asserted_shape op response); try discriminate;
    intros [= <-]; repeat split; try discriminate.
  - intros status [= <-]. eauto.
Qed.

Section Results.
Context {T : Type}.
Variable query : string -> OrderedDict -> Api T -> outcome value * Api T.
Variable self : _Token T.

Lemma invoke_return (op : operation) (v : value) :
  fst (invoke query op self) = Return v ->
  fst (query (method_name op) (request op (session_key (api self)))
         (api self)) = Return v
  /\ verdict op v = Return v.
Proof.
  rewrite invoke_run. destruct (query _ _ _) as [[response|e] a]; simpl.
  - intros H. destruct (verdict_return _ _ _ H) as (-> & _). auto.
  - discriminate.
Qed.

(** C3 (amended): a call returns a dict that holds a ["status"] key only if
    it is [delete_participants] or [get_participant_properties] and the
    status is none of the error strings that method lists; [get_summary],
    [list_participants] and [add_participants] never return such a dict. *)
Theorem returned_status_is_unlisted
    (op : operation) (v status : value) :
  fst (invoke query op self) = Return v ->
  status_of v = Some status ->
  ((exists survey_id tokens, op = DeleteParticipants survey_id tokens)
   /\ ~ (exists s, status = VStr s
           /\ In s ["Error: Invalid survey ID"; "Error: No token table";
                    "No permission"; "Invalid Session Key"]))
  \/ ((exists survey_id token_id,
         op = GetParticipantProperties survey_id token_id)
      /\ ~ (exists s, status = VStr s
              /\ In s ["Error: Invalid survey ID"; "Error: No token table";
                       "Error: Invalid tokenid"; "No permission";
                       "Invalid Session Key"])).
Proof.
  intros Hret Hst. apply invoke_return in Hret as [_ Hv].
  apply verdict_return in Hv as (_ & Hshape & Hl).
  destruct (Hl _ Hst) as (l & Herr & Hin). apply not_listed_spec in Hin.
  destruct (status_of_is_dict _ _ Hst) as [_ Hlist].
  destruct op; cbn [error_messages asserted_shape] in Herr, Hshape;
    try discriminate; try congruence;
    injection Herr as <-; [left | right]; eauto.
Qed.

(** C8: for every call, a transport response of the method's success shape
    that is not a dict holding ["status"] is what the call returns, the
    very same value. *)
Theorem success_payload_passes_through (op : operation) (response : value) :
  fst (query (method_name op) (request op (session_key (api self)))
         (api self)) = Return response ->
  expected_shape op response = true ->
  status_of response = None ->
  fst (invoke query op self) = Return response.
Proof.
  intros Hq Hshape Hst. rewrite (invoke_outcome _ _ _ _ Hq).
  rewrite (verdict_no_status _ _ Hst).
  destruct op; cbn [asserted_shape expected_shape] in *;
    try rewrite Hshape; reflexivity.
Qed.

(** C10: [get_summary] and [list_participants] check no shape: whatever the
    transport answers, be it [None], a number, a string, a list or a dict,
    as long as it is not a dict holding ["status"], the call returns it as
    it is.  The other three methods assert the shape: a response without a
    status that is not a list ([add_participants]), respectively not a dict
    ([delete_participants], [get_participant_properties]), fails the
    assert. *)
Theorem no_shape_check_in_summary_and_listing
    (survey_id start limit ignore_token_used attributes conditions
       participant_data create_token_key tokens token_id response : value) :
  status_of response = None ->
  (fst (query "get_summary"
          [("sSessionKey", session_key (api self));
           ("iSurveyID", survey_id)] (api self)) = Return response ->
   fst (get_summary query survey_id self) = Return response)
  /\ (fst (query "list_participants"
             [("sSessionKey", session_key (api self));
              ("iSurveyID", survey_id); ("iStart", start);
              ("iLimit", limit); ("bUnused", ignore_token_used);
              ("aAttributes", attributes);
              ("aConditions", py_or conditions (VList []))] (api self))
      = Return response ->
      fst (list_participants query survey_id start limit ignore_token_used
             attributes conditions self) = Return response)
  /\ (fst (query "add_participants"
             [("sSessionKey", session_key (api self));
              ("iSurveyID", survey_id);
              ("aParticipantData", participant_data);
              ("bCreateToken", create_token_key)] (api self))
      = Return response ->
      type_is_list response = false ->
      fst (add_participants query survey_id participant_data
             create_token_key self) = Raise AssertionError)
  /\ (fst (query "delete_participants"
             [("sSessionKey", session_key (api self));
              ("iSurveyID", survey_id); ("aTokenIDs", tokens)] (api self))
      = Return response ->
      type_is_dict response = false ->
      fst (delete_participants query survey_id tokens self)
      = Raise AssertionError)
  /\ (fst (query "get_participant_properties"
             [("sSessionKey", session_key (api self));
              ("iSurveyID", survey_id);
              ("aTokenQueryProperties", VDict {[ "tid" := token_id ]})]
             (api self)) = Return response ->
      type_is_dict response = false ->
      fst (get_participant_properties query survey_id token_id self)
      = Raise AssertionError).
Proof.
  intros Hst. repeat split; intros Hq.
  - etransitivity;
      [exact (invoke_outcome query (GetSummary survey_id) self _ Hq)|].
    rewrite (verdict_no_status _ _ Hst). reflexivity.
  - etransitivity;
      [exact (invoke_outcome query
                (ListParticipants survey_id start limit ignore_token_used
                   attributes conditions) self _ Hq)|].
    rewrite (verdict_no_status _ _ Hst). reflexivity.
  - intros Hshape. etransitivity;
      [exact (invoke_outcome query
                (AddParticipants survey_id participant_data
                   create_token_key) self _ Hq)|].
    rewrite (verdict_no_status _ _ Hst). cbn [asserted_shape].
    rewrite Hshape. reflexivity.
  - intros Hshape. etransitivity;
      [exact (invoke_outcome query (DeleteParticipants survey_id tokens)
                self _ Hq)|].
    rewrite (verdict_no_status _ _ Hst). cbn [asserted_shape].
    rewrite Hshape. reflexivity.
  - intros Hshape. etransitivity;
      [exact (invoke_outcome query
                (GetParticipantProperties survey_id token_id) self _ Hq)|].
    rewrite (verdict_no_status _ _ Hst). cbn [asserted_shape].
    rewrite Hshape. reflexivity.
Qed.

(** ** The session context *)

(** C9: no call writes to the client object.  After a call, whatever its
    outcome, [self.api] is the api object just as the one transport call
    left it; so with a transport that leaves [session_key] alone, the
    session key after the call is the session key before it, and with a
    transport that leaves the whole api object alone, the client object
    after the call is the client object before it. *)
Theorem session_context_not_mutated (op : operation) :
  snd (invoke query op self)
  = Mk_Token (snd (query (method_name op)
                     (request op (session_key (api self))) (api self)))
  /\ ((forall method params a,
         session_key (snd (query method params a)) = session_key a) ->
      session_key (api (snd (invoke query op self)))
      = session_key (api self))
  /\ ((forall method params a, snd (query method params a) = a) ->
      snd (invoke query op self) = self).
Proof.
  rewrite invoke_state. split; [reflexivity|]. split; intros Hquery.
  - apply Hquery.
  - rewrite Hquery. destruct self. reflexivity.
Qed.

End Results.

(** ** What is sent *)

(** With the recording stub, a call appends to the log exactly its method
    name and its parameters. *)
Lemma invoke_logs (reply : string -> OrderedDict -> outcome value)
    (op : operation) (self : _Token call_log) :
  conn (api (snd (invoke (stub reply) op self)))
  = conn (api self)
    ++ [(method_name op, request op (session_key (api self)))].
Proof. rewrite invoke_state. reflexivity. Qed.

(** C6: for every survey id, [list_participants] with its default
    arguments sends, after the session key and the survey id,
    [iStart = 0], [iLimit = 1000], [bUnused = False], [aAttributes = False]
    and [aConditions = []], in this order. *)
Theorem list_participants_default_request
    (reply : string -> OrderedDict -> outcome value)
    (self : _Token call_log) (survey_id : value) :
  conn (api (snd (list_participants_default (stub reply) survey_id self)))
  = conn (api self)
    ++ [("list_participants",
         [("sSessionKey", session_key (api self));
          ("iSurveyID", survey_id);
          ("iStart", VInt 0);
          ("iLimit", VInt 1000);
          ("bUnused", VBool false);
          ("aAttributes", VBool false);
          ("aConditions", VList [])])].
Proof.
  exact (invoke_logs reply
           (ListParticipants survey_id (VInt 0) (VInt 1000) (VBool false)
              (VBool false) VNone) self).
Qed.

(** C7: for every survey id and token id, [get_participant_properties]
    sends as its third parameter, under [aTokenQueryProperties], the dict
    [{"tid": token_id}]. *)
Theorem get_participant_properties_request
    (reply : string -> OrderedDict -> outcome value)
    (self : _Token call_log) (survey_id token_id : value) :
  conn (api (snd (get_participant_properties (stub reply) survey_id
                    token_id self)))
  = conn (api self)
    ++ [("get_participant_properties",
         [("sSessionKey", session_key (api self));
          ("iSurveyID", survey_id);
          ("aTokenQueryProperties", VDict {[ "tid" := token_id ]})])].
Proof.
  exact (invoke_logs reply
           (GetParticipantProperties survey_id token_id) self).
Qed.

(** ** The properties at work on the stub *)

(** An error envelope with an unlisted status: raised by [get_summary] and
    by [list_participants]. *)
Lemma status_envelope_always_raises_witness :
  fst (get_summary (stub (always status_ok)) (VInt 7) fresh)
  = Raise (LimeSurveyError "get_summary" (VStr "OK"))
  /\ fst (list_participants_default (stub (always status_ok)) (VInt 7) fresh)
     = Raise (LimeSurveyError "list_participants" (VStr "OK")).
Proof.
  assert (Hst : ({[ "status" := VStr "OK" ]} : gmap string value)
                  !! "status" = Some (VStr "OK")) by reflexivity.
  destruct (status_envelope_always_raises (stub (always status_ok)) fresh
              (VInt 7) (VInt 0) (VInt 1000) (VBool false) (VBool false) VNone
              {[ "status" := VStr "OK" ]} (VStr "OK") Hst) as [H1 H2].
  split; [apply H1 | apply H2]; reflexivity.
Defined.

(** A listed status is raised by [add_participants]; an unlisted one fails
    the assert. *)
Lemma add_participants_raises_iff_witness :
  fst (add_participants_default (stub (always invalid_survey)) (VInt 7)
         (VList []) fresh)
  = Raise (LimeSurveyError "add_participants"
             (VStr "Error: Invalid survey ID"))
  /\ fst (add_participants_default (stub (always status_ok)) (VInt 7)
            (VList []) fresh)
     = Raise AssertionError.
Proof.
  split.
  - apply (add_participants_raises_iff (stub (always invalid_survey)) fresh
             (VInt 7) (VList []) (VBool true) invalid_survey eq_refl).
    split; [reflexivity|]. split; [reflexivity|].
    exists "Error: Invalid survey ID". split; [reflexivity | simpl; auto].
  - apply (add_participants_raises_iff (stub (always status_ok)) fresh
             (VInt 7) (VList []) (VBool true) status_ok eq_refl)
      with (status := VStr "OK"); [reflexivity|].
    intros (s & [= <-] & Hin). simpl in Hin.
    destruct Hin as [H|[H|[H|[]]]]; discriminate H.
Defined.

Lemma delete_participants_raises_iff_witness :
  fst (delete_participants (stub (always invalid_survey)) (VInt 7)
         (VList [VInt 1]) fresh)
  = Raise (LimeSurveyError "delete_participants"
             (VStr "Error: Invalid survey ID")).
Proof.
  apply (delete_participants_raises_iff (stub (always invalid_survey)) fresh
           (VInt 7) (VList [VInt 1]) invalid_survey _ _ eq_refl).
  split; [reflexivity|]. split; [reflexivity|].
  exists "Error: Invalid survey ID". split; [reflexivity | simpl; auto].
Defined.

Lemma get_participant_properties_raises_iff_witness :
  fst (get_participant_properties (stub (always invalid_survey)) (VInt 7)
         (VInt 42) fresh)
  = Raise (LimeSurveyError "get_participant_properties"
             (VStr "Error: Invalid survey ID")).
Proof.
  apply (get_participant_properties_raises_iff
           (stub (always invalid_survey)) fresh
           (VInt 7) (VInt 42) invalid_survey _ _ eq_refl).
  split; [reflexivity|]. split; [reflexivity|].
  exists "Error: Invalid survey ID". split; [reflexivity | simpl; auto].
Defined.

(** C3 as stated fails: answered with [{"status": "OK"}],
    [delete_participants] returns that very dict, a dict holding
    ["status"], as its result. *)
Lemma delete_participants_returns_status_dict :
  fst (delete_participants (stub (always status_ok)) (VInt 7)
         (VList [VInt 1]) fresh)
  = Return (VDict {[ "status" := VStr "OK" ]})
  /\ type_is_dict (VDict {[ "status" := VStr "OK" ]})
     && contains "status" (VDict {[ "status" := VStr "OK" ]}) = true.
Proof. split; reflexivity. Qed.

Lemma returned_status_is_unlisted_witness :
  ~ (exists s, VStr "OK" = VStr s
       /\ In s ["Error: Invalid survey ID"; "Error: No token table";
                "No permission"; "Invalid Session Key"]).
Proof.
  destruct (returned_status_is_unlisted (stub (always status_ok)) fresh
              (DeleteParticipants (VInt 7) (VList [VInt 1]))
              status_ok (VStr "OK") eq_refl eq_refl)
    as [[_ H] | [(sid & tid & Hop) _]].
  - exact H.
  - discriminate Hop.
Defined.

(** The deletion outcome for tokens 1, 2 and 3 comes back as it is. *)
Lemma success_payload_passes_through_witness :
  fst (delete_participants (stub (always deletions)) (VInt 7)
         (VList [VInt 1; VInt 2; VInt 3]) fresh)
  = Return deletions.
Proof.
  exact (success_payload_passes_through (stub (always deletions)) fresh
           (DeleteParticipants (VInt 7) (VList [VInt 1; VInt 2; VInt 3]))
           deletions eq_refl eq_refl eq_refl).
Defined.

(** A list where a summary is documented, and a string where a list is:
    both come back unchecked; [add_participants] refuses the string. *)
Lemma no_shape_check_in_summary_and_listing_witness :
  fst (get_summary (stub (always (VStr "oops"))) (VInt 7) fresh)
  = Return (VStr "oops")
  /\ fst (list_participants_default (stub (always (VStr "oops"))) (VInt 7)
            fresh)
     = Return (VStr "oops")
  /\ fst (add_participants_default (stub (always (VStr "oops"))) (VInt 7)
            (VList []) fresh)
     = Raise AssertionError.
Proof.
  destruct (no_shape_check_in_summary_and_listing
              (stub (always (VStr "oops"))) fresh
              (VInt 7) (VInt 0) (VInt 1000) (VBool false) (VBool false) VNone
              (VList []) (VBool true) (VList []) (VInt 42) (VStr "oops")
              eq_refl) as (H1 & H2 & H3 & _).
  split; [apply H1; reflexivity|].
  split; [apply H2; reflexivity | apply H3; reflexivity].
Defined.

(** The session key survives a call that returns, a call that raises the
    domain error, and a call that fails its assert. *)
Lemma session_context_not_mutated_witness :
  session_key (api (snd (invoke (stub (always summary))
                           (GetSummary (VInt 7)) fresh))) = VStr "k"
  /\ session_key (api (snd (invoke (stub (always status_ok))
                              (GetSummary (VInt 7)) fresh))) = VStr "k"
  /\ session_key (api (snd (invoke (stub (always status_ok))
                              (AddParticipants (VInt 7) (VList [])
                                 (VBool true)) fresh))) = VStr "k".
Proof.
  split; [|split].
  - apply (session_context_not_mutated (stub (always summary)) fresh
             (GetSummary (VInt 7))). intros method params a. reflexivity.
  - apply (session_context_not_mutated (stub (always status_ok)) fresh
             (GetSummary (VInt 7))). intros method params a. reflexivity.
  - apply (session_context_not_mutated (stub (always status_ok)) fresh
             (AddParticipants (VInt 7) (VList []) (VBool true))).
    intros method params a. reflexivity.
Defined.

(** ** Runs of the methods on the stub *)

Example get_summary_returns_summary :
  get_summary (stub (always summary)) (VInt 7) fresh
  = (Return summary,
     Mk_Token (MkApi (VStr "k")
       [("get_summary",
         [("sSessionKey", VStr "k"); ("iSurveyID", VInt 7)])])).
Proof. reflexivity. Qed.

Example add_participants_sends_create_token_flag :
  add_participants (stub (always participants)) (VInt 7) (VList [])
    (VBool false) fresh
  = (Return participants,
     Mk_Token (MkApi (VStr "k")
       [("add_participants",
         [("sSessionKey", VStr "k"); ("iSurveyID", VInt 7);
          ("aParticipantData", VList []); ("bCreateToken", VBool false)])])).
Proof. reflexivity. Qed.

Example list_participants_keeps_given_conditions :
  conn (api (snd (list_participants (stub (always participants)) (VInt 7)
                    (VInt 5) (VInt 10) (VBool true) (VList [VStr "email"])
                    (VList [VDict {[ "email" := VStr "t1@test.com" ]}])
                    fresh)))
  = [("list_participants",
      [("sSessionKey", VStr "k"); ("iSurveyID", VInt 7);
       ("iStart", VInt 5); ("iLimit", VInt 10); ("bUnused", VBool true);
       ("aAttributes", VList [VStr "email"]);
       ("aConditions",
        VList [VDict {[ "email" := VStr "t1@test.com" ]}])])].
Proof. reflexivity. Qed.

Example get_participant_properties_fails_assert_on_list :
  fst (get_participant_properties (stub (always participants)) (VInt 7)
         (VInt 42) fresh)
  = Raise AssertionError.
Proof. reflexivity. Qed.

Example empty_conditions_become_empty_list :
  py_or (VDict ∅) (VList []) = VList []
  /\ py_or (VInt 0) (VList []) = VList []
  /\ py_or (VDict {[ "email" := VStr "a" ]}) (VList [])
     = VDict {[ "email" := VStr "a" ]}.
Proof. repeat split; vm_compute; reflexivity. Qed.

Example transport_failure_propagates :
  fst (get_summary (stub (fun _ _ => Raise (TransportError "timeout")))
         (VInt 7) fresh)
  = Raise (TransportError "timeout").
Proof. reflexivity. Qed.

(** * Further properties of the client *)

(** ** The transport call *)

(** X1: no method catches or translates what [api.query] raises: when the
    one transport call of a method raises, the method raises that very
    exception. *)
Theorem transport_exception_propagates {T}
    (query : string -> OrderedDict -> Api T -> outcome value * Api T)
    (self : _Token T) (op : operation) (e : exn) :
  fst (query (method_name op) (request op (session_key (api self)))
         (api self)) = Raise e ->
  fst (invoke query op self) = Raise e.
Proof.
  intros Hq. rewrite invoke_run.
  destruct (query _ _ _) as [r a]. simpl in Hq. subst r. reflexivity.
Qed.

Lemma transport_exception_propagates_witness :
  fst (delete_participants
         (stub (fun _ _ => Raise (TransportError "connection refused")))
         (VInt 7) (VList [VInt 1]) fresh)
  = Raise (TransportError "connection refused").
Proof.
  exact (transport_exception_propagates
           (stub (fun _ _ => Raise (TransportError "connection refused")))
           fresh (DeleteParticipants (VInt 7) (VList [VInt 1]))
           (TransportError "connection refused") eq_refl).
Defined.

(** X2: a client built by [__init__] over an api object queries the
    transport exactly once per call, whatever the arguments and whatever the
    transport answers or raises: the log of the stub grows by one request,
    which carries the method's name and begins with the api object's session
    key under [sSessionKey] and the survey id under [iSurveyID]. *)
Theorem every_call_queries_once
    (reply : string -> OrderedDict -> outcome value)
    (a : Api call_log) (op : operation) :
  exists rest,
    conn (api (snd (invoke (stub reply) op (__init__ a))))
    = conn a
      ++ [(method_name op,
           ("sSessionKey", session_key a)
             :: ("iSurveyID", survey_id_of op) :: rest)].
Proof.
  rewrite invoke_logs. destruct op; eexists; reflexivity.
Qed.

(** X3: the requests of [get_summary], [add_participants] and
    [delete_participants], key by key and in order: the arguments are sent
    as given, [add_participants] puts [bCreateToken] last, and leaving
    [create_token_key] out sends [True]. *)
Theorem requests_of_summary_add_delete
    (reply : string -> OrderedDict -> outcome value) (a : Api call_log)
    (survey_id participant_data create_token_key tokens : value) :
  conn (api (snd (get_summary (stub reply) survey_id (__init__ a))))
  = conn a
    ++ [("get_summary",
         [("sSessionKey", session_key a); ("iSurveyID", survey_id)])]
  /\ conn (api (snd (add_participants (stub reply) survey_id
                       participant_data create_token_key (__init__ a))))
     = conn a
       ++ [("add_participants",
            [("sSessionKey", session_key a); ("iSurveyID", survey_id);
             ("aParticipantData", participant_data);
             ("bCreateToken", create_token_key)])]
  /\ conn (api (snd (add_participants_default (stub reply) survey_id
                       participant_data (__init__ a))))
     = conn a
       ++ [("add_participants",
            [("sSessionKey", session_key a); ("iSurveyID", survey_id);
             ("aParticipantData", participant_data);
             ("bCreateToken", VBool true)])]
  /\ conn (api (snd (delete_participants (stub reply) survey_id tokens
                       (__init__ a))))
     = conn a
       ++ [("delete_participants",
            [("sSessionKey", session_key a); ("iSurveyID", survey_id);
             ("aTokenIDs", tokens)])].
Proof.
  split; [|split; [|split]].
  - exact (invoke_logs reply (GetSummary survey_id) (__init__ a)).
  - exact (invoke_logs reply
             (AddParticipants survey_id participant_data create_token_key)
             (__init__ a)).
  - exact (invoke_logs reply
             (AddParticipants survey_id participant_data (VBool true))
             (__init__ a)).
  - exact (invoke_logs reply (DeleteParticipants survey_id tokens)
             (__init__ a)).
Qed.

(** The values Python takes for false. *)
Lemma falsy_values (v : value) :
  truthy v = false ->
  In v [VNone; VBool false; VInt 0; VStr ""; VList []; VDict ∅].
Proof.
  destruct v as [|b|z|s|l|d]; simpl; intros H.
  - auto.
  - destruct b; [discriminate | auto].
  - apply negb_false_iff, Z.eqb_eq in H. subst. auto.
  - apply negb_false_iff, String.eqb_eq in H. subst. auto.
  - destruct l; [auto 10 | discriminate].
  - apply negb_false_iff, bool_decide_eq_true in H. subst. auto 10.
Qed.

(** X4: [list_participants] replaces a falsy [conditions] by the empty
    list and sends a truthy one as it is; [start], [limit],
    [ignore_token_used] and [attributes] are sent as given, falsy or not. *)
Theorem list_participants_conditions_sent
    (reply : string -> OrderedDict -> outcome value) (a : Api call_log)
    (survey_id start limit ignore_token_used attributes conditions : value) :
  exists sent,
    conn (api (snd (list_participants (stub reply) survey_id start limit
                      ignore_token_used attributes conditions (__init__ a))))
    = conn a
      ++ [("list_participants",
           [("sSessionKey", session_key a); ("iSurveyID", survey_id);
            ("iStart", start); ("iLimit", limit);
            ("bUnused", ignore_token_used); ("aAttributes", attributes);
            ("aConditions", sent)])]
    /\ (In conditions
          [VNone; VBool false; VInt 0; VStr ""; VList []; VDict ∅] ->
        sent = VList [])
    /\ (~ In conditions
            [VNone; VBool false; VInt 0; VStr ""; VList []; VDict ∅] ->
        sent = conditions).
Proof.
  exists (py_or conditions (VList [])). split.
  - exact (invoke_logs reply
             (ListParticipants survey_id start limit ignore_token_used
                attributes conditions) (__init__ a)).
  - split.
    + simpl. intros [<-|[<-|[<-|[<-|[<-|[<-|[]]]]]]]; reflexivity.
    + intros Hnot. unfold py_or.
      destruct (truthy conditions) eqn:Htruthy; [reflexivity|].
      exfalso. apply Hnot. apply falsy_values. exact Htruthy.
Qed.

Lemma list_participants_conditions_sent_witness :
  conn (api (snd (list_participants (stub (always participants)) (VInt 7)
                    (VInt 0) (VInt 1000) (VBool false) (VBool false)
                    (VDict ∅) (__init__ (MkApi (VStr "k") [])))))
  = [("list_participants",
      [("sSessionKey", VStr "k"); ("iSurveyID", VInt 7);
       ("iStart", VInt 0); ("iLimit", VInt 1000);
       ("bUnused", VBool false); ("aAttributes", VBool false);
       ("aConditions", VList [])])]
  /\ conn (api (snd (list_participants (stub (always participants)) (VInt 7)
                       (VInt 0) (VInt 1000) (VBool false) (VBool false)
                       (VList [VStr "email = 't1@test.com'"])
                       (__init__ (MkApi (VStr "k") [])))))
     = [("list_participants",
         [("sSessionKey", VStr "k"); ("iSurveyID", VInt 7);
          ("iStart", VInt 0); ("iLimit", VInt 1000);
          ("bUnused", VBool false); ("aAttributes", VBool false);
          ("aConditions", VList [VStr "email = 't1@test.com'"])])].
Proof.
  destruct (list_participants_conditions_sent (always participants)
              (MkApi (VStr "k") []) (VInt 7) (VInt 0) (VInt 1000)
              (VBool false) (VBool false) (VDict ∅))
    as (sent & Hlog & Hfalsy & _).
  destruct (list_participants_conditions_sent (always participants)
              (MkApi (VStr "k") []) (VInt 7) (VInt 0) (VInt 1000)
              (VBool false) (VBool false)
              (VList [VStr "email = 't1@test.com'"]))
    as (sent' & Hlog' & _ & Htruthy).
  split.
  - rewrite Hlog, Hfalsy; [reflexivity|]. simpl. auto 10.
  - rewrite Hlog', Htruthy; [reflexivity|]. simpl.
    intros [H|[H|[H|[H|[H|[H|[]]]]]]]; discriminate H.
Defined.

(** ** What comes back *)

(** X5: no method builds, copies or edits a result: whatever a call
    returns, with or without a status key, is the value the transport call
    returned. *)
Theorem returned_value_is_the_response {T}
    (query : string -> OrderedDict -> Api T -> outcome value * Api T)
    (self : _Token T) (op : operation) (v : value) :
  fst (invoke query op self) = Return v ->
  fst (query (method_name op) (request op (session_key (api self)))
         (api self)) = Return v.
Proof. intros Hret. apply (invoke_return query self op v Hret). Qed.

Lemma returned_value_is_the_response_witness :
  fst (stub (always status_ok) "get_participant_properties"
         [("sSessionKey", VStr "k"); ("iSurveyID", VInt 7);
          ("aTokenQueryProperties", VDict {[ "tid" := VInt 42 ]})]
         (api fresh))
  = Return status_ok.
Proof.
  exact (returned_value_is_the_response (stub (always status_ok)) fresh
           (GetParticipantProperties (VInt 7) (VInt 42)) status_ok eq_refl).
Defined.

(** X6: the closing asserts fix the type of every result:
    [add_participants] returns nothing but a list, [delete_participants]
    and [get_participant_properties] nothing but a dict. *)
Theorem asserted_result_types {T}
    (query : string -> OrderedDict -> Api T -> outcome value * Api T)
    (self : _Token T) :
  (forall survey_id participant_data create_token_key v,
      fst (add_participants query survey_id participant_data
             create_token_key self) = Return v ->
      exists l, v = VList l)
  /\ (forall survey_id tokens v,
        fst (delete_participants query survey_id tokens self) = Return v ->
        exists d, v = VDict d)
  /\ (forall survey_id token_id v,
        fst (get_participant_properties query survey_id token_id self)
        = Return v ->
        exists d, v = VDict d).
Proof.
  split; [|split]; intros.
  - destruct (invoke_return query self
                (AddParticipants survey_id participant_data create_token_key)
                v H) as [_ Hv].
    apply verdict_return in Hv as (_ & Hshape & _).
    destruct v; try discriminate Hshape. eauto.
  - destruct (invoke_return query self
                (DeleteParticipants survey_id tokens) v H) as [_ Hv].
    apply verdict_return in Hv as (_ & Hshape & _).
    destruct v; try discriminate Hshape. eauto.
  - destruct (invoke_return query self
                (GetParticipantProperties survey_id token_id) v H)
      as [_ Hv].
    apply verdict_return in Hv as (_ & Hshape & _).
    destruct v; try discriminate Hshape. eauto.
Qed.

Lemma asserted_result_types_witness :
  (exists l, participants = VList l)
  /\ (exists d, deletions = VDict d)
  /\ (exists d, status_ok = VDict d).
Proof.
  split; [|split].
  - apply (asserted_result_types (stub (always participants)) fresh)
      with (survey_id := VInt 7) (participant_data := VList [])
           (create_token_key := VBool true).
    reflexivity.
  - eapply (proj1 (proj2 (asserted_result_types (stub (always deletions))
                            fresh)))
      with (survey_id := VInt 7) (tokens := VList [VInt 1]).
    reflexivity.
  - eapply (proj2 (proj2 (asserted_result_types (stub (always status_ok))
                            fresh)))
      with (survey_id := VInt 7) (token_id := VInt 42).
    reflexivity.
Defined.

(** ** What is raised *)

(** X7: on a response from the transport a method raises nothing of its
    own but these two: [LimeSurveyError] with its own name and the status
    the response holds, or [AssertionError] from a closing assert the
    response fails.  The subscript [response["status"]] never raises
    [KeyError] or [TypeError], and [get_summary] and [list_participants]
    never raise [AssertionError]. *)
Theorem client_raises_domain_error_or_assertion {T}
    (query : string -> OrderedDict -> Api T -> outcome value * Api T)
    (self : _Token T) (op : operation) (response : value) (e : exn) :
  fst (query (method_name op) (request op (session_key (api self)))
         (api self)) = Return response ->
  fst (invoke query op self) = Raise e ->
  (exists status,
      status_of response = Some status
      /\ e = LimeSurveyError (method_name op) status)
  \/ (e = AssertionError
      /\ asserted_shape op response = false
      /\ (forall survey_id, op <> GetSummary survey_id)
      /\ (forall survey_id start limit ignore_token_used attributes
            conditions,
            op <> ListParticipants survey_id start limit ignore_token_used
                    attributes conditions)).
Proof.
  intros Hq. rewrite (invoke_outcome _ _ _ _ Hq). unfold verdict.
  destruct (status_of response) as [status|],
           (error_messages op) as [l|] eqn:Hl; cbv zeta;
    try destruct (listed l status);
    try (intros [= <-]; left; eauto; fail);
    destruct (asserted_shape op response) eqn:Hshape; try discriminate;
    intros [= <-]; right;
    (split; [reflexivity|]); (split; [reflexivity|]);
    destruct op; try discriminate Hl; try discriminate Hshape;
    split; intros; discriminate.
Qed.

Lemma client_raises_domain_error_or_assertion_witness :
  (exists status,
      status_of (VList []) = Some status
      /\ AssertionError = LimeSurveyError "delete_participants" status)
  \/ (AssertionError = AssertionError
      /\ type_is_dict (VList []) = false
      /\ (forall survey_id,
            DeleteParticipants (VInt 7) (VList [])
            <> GetSummary survey_id)
      /\ (forall survey_id start limit ignore_token_used attributes
            conditions,
            DeleteParticipants (VInt 7) (VList [])
            <> ListParticipants survey_id start limit ignore_token_used
                 attributes conditions)).
Proof.
  exact (client_raises_domain_error_or_assertion
           (stub (always (VList []))) fresh
           (DeleteParticipants (VInt 7) (VList [])) (VList [])
           AssertionError eq_refl eq_refl).
Defined.

(** On the stub that always answers [response], a call is [verdict] of that
    response. *)
Lemma invoke_always (response : value) (op : operation)
    (self : _Token call_log) :
  fst (invoke (stub (always response)) op self) = verdict op response.
Proof. apply invoke_outcome. reflexivity. Qed.

(** [verdict] fails the assert exactly when the response misses the
    asserted type and carries no listed status. *)
Lemma verdict_assertion_iff (op : operation) (response : value) :
  verdict op response = Raise AssertionError
  <-> asserted_shape op response = false
      /\ forall status l,
           status_of response = Some status ->
           error_messages op = Some l -> listed l status = false.
Proof.
  unfold verdict.
  destruct (status_of response) as [status|] eqn:Hst,
           (error_messages op) as [l|] eqn:Hl; cbv zeta.
  - destruct (listed l status) eqn:Hin.
    + split; [discriminate|]. intros [_ H].
      specialize (H _ _ eq_refl eq_refl). congruence.
    + destruct (asserted_shape op response).
      * split; [discriminate | intros [[=] _]].
      * split; [|reflexivity]. intros _. split; [reflexivity|].
        intros ? ? [= <-] [= <-]. exact Hin.
  - split; [discriminate|]. intros [Hshape _].
    destruct op; discriminate.
  - destruct (asserted_shape op response).
    + split; [discriminate | intros [[=] _]].
    + split; [|reflexivity]. intros _. split; [reflexivity | discriminate].
  - destruct (asserted_shape op response).
    + split; [discriminate | intros [[=] _]].
    + split; [|reflexivity]. intros _. split; [reflexivity | discriminate].
Qed.

Section OnResponse.
Variable response : value.
Variable self : _Token call_log.
Variables survey_id start limit ignore_token_used attributes conditions
  participant_data create_token_key tokens token_id : value.

(** X8: when the asserts fire.  [delete_participants] and
    [get_participant_properties] fail their assert exactly on a response
    that is not a dict; [add_participants] fails its assert exactly on a
    response that is not a list and is not an envelope with one of its
    three error strings; [get_summary] and [list_participants] never do. *)
Theorem assertion_fails_iff :
  (fst (add_participants (stub (always response)) survey_id
          participant_data create_token_key self) = Raise AssertionError
   <-> type_is_list response = false
       /\ ~ (exists s, status_of response = Some (VStr s)
               /\ In s ["Error: Invalid survey ID"; "No token table";
                        "No permission"]))
  /\ (fst (delete_participants (stub (always response)) survey_id tokens
             self) = Raise AssertionError
      <-> type_is_dict response = false)
  /\ (fst (get_participant_properties (stub (always response)) survey_id
             token_id self) = Raise AssertionError
      <-> type_is_dict response = false)
  /\ fst (get_summary (stub (always response)) survey_id self)
     <> Raise AssertionError
  /\ fst (list_participants (stub (always response)) survey_id start limit
            ignore_token_used attributes conditions self)
     <> Raise AssertionError.
Proof.
  pose proof (invoke_always response
    (AddParticipants survey_id participant_data create_token_key) self)
    as Hadd.
  pose proof (invoke_always response
    (DeleteParticipants survey_id tokens) self) as Hdel.
  pose proof (invoke_always response
    (GetParticipantProperties survey_id token_id) self) as Hget.
  pose proof (invoke_always response (GetSummary survey_id) self) as Hsum.
  pose proof (invoke_always response
    (ListParticipants survey_id start limit ignore_token_used attributes
       conditions) self) as Hlist.
  cbn [invoke] in Hadd, Hdel, Hget, Hsum, Hlist.
  rewrite Hadd, Hdel, Hget, Hsum, Hlist, !verdict_assertion_iff.
  cbn [asserted_shape error_messages].
  split; [|split; [|split; [|split]]].
  - split; intros [Hshape H]; (split; [exact Hshape|]).
    + intros (s & Hst & Hin).
      specialize (H _ _ Hst eq_refl).
      apply not_listed_spec in H. apply H. eauto.
    + intros status l Hst [= <-]. apply not_listed_spec.
      intros (s & -> & Hin). apply H. eauto.
  - split; [intros [H _]; exact H|]. intros Hshape.
    split; [exact Hshape|]. intros status l Hst.
    destruct (status_of_is_dict _ _ Hst). congruence.
  - split; [intros [H _]; exact H|]. intros Hshape.
    split; [exact Hshape|]. intros status l Hst.
    destruct (status_of_is_dict _ _ Hst). congruence.
  - intros [[=] _].
  - intros [[=] _].
Qed.

(** X9: the methods recognise errors in a nested way.  A response on which
    [delete_participants] raises [LimeSurveyError] makes
    [get_participant_properties] raise it with the same status; and a
    response on which any of the three methods with a list raises it makes
    [get_summary] and [list_participants] raise it with the same status. *)
Theorem error_recognition_is_nested (method : string) (status : value) :
  (fst (delete_participants (stub (always response)) survey_id tokens self)
   = Raise (LimeSurveyError method status) ->
   fst (get_participant_properties (stub (always response)) survey_id
          token_id self)
   = Raise (LimeSurveyError "get_participant_properties" status))
  /\ (fst (add_participants (stub (always response)) survey_id
             participant_data create_token_key self)
      = Raise (LimeSurveyError method status)
      \/ fst (delete_participants (stub (always response)) survey_id tokens
                self)
         = Raise (LimeSurveyError method status)
      \/ fst (get_participant_properties (stub (always response)) survey_id
                token_id self)
         = Raise (LimeSurveyError method status) ->
      fst (get_summary (stub (always response)) survey_id self)
      = Raise (LimeSurveyError "get_summary" status)
      /\ fst (list_participants (stub (always response)) survey_id start
                limit ignore_token_used attributes conditions self)
         = Raise (LimeSurveyError "list_participants" status)).
Proof.
  pose proof (invoke_always response
    (AddParticipants survey_id participant_data create_token_key) self)
    as Hadd.
  pose proof (invoke_always response
    (DeleteParticipants survey_id tokens) self) as Hdel.
  pose proof (invoke_always response
    (GetParticipantProperties survey_id token_id) self) as Hget.
  pose proof (invoke_always response (GetSummary survey_id) self) as Hsum.
  pose proof (invoke_always response
    (ListParticipants survey_id start limit ignore_token_used attributes
       conditions) self) as Hlist.
  cbn [invoke] in Hadd, Hdel, Hget, Hsum, Hlist.
  rewrite Hadd, Hdel, Hget, Hsum, Hlist.
  rewrite (verdict_raises_iff
             (AddParticipants survey_id participant_data create_token_key)
             _ response method status eq_refl).
  rewrite (verdict_raises_iff (DeleteParticipants survey_id tokens)
             _ response method status eq_refl).
  rewrite (verdict_raises_iff (GetParticipantProperties survey_id token_id)
             _ response method status eq_refl).
  split.
  - intros (_ & Hst & Hin).
    apply (verdict_raises_iff (GetParticipantProperties survey_id token_id)
             _ response _ status eq_refl).
    split; [reflexivity|]. split; [exact Hst|].
    apply listed_spec in Hin as (s & -> & Hin). apply listed_spec.
    exists s. split; [reflexivity|]. simpl in *. tauto.
  - intros H.
    assert (Hst : status_of response = Some status) by tauto.
    split; apply verdict_any_status; auto.
Qed.

End OnResponse.

Lemma assertion_fails_iff_witness :
  fst (delete_participants (stub (always participants)) (VInt 7)
         (VList [VInt 1]) fresh) = Raise AssertionError
  /\ fst (add_participants (stub (always deletions)) (VInt 7) (VList [])
            (VBool true) fresh) = Raise AssertionError.
Proof.
  destruct (assertion_fails_iff participants fresh (VInt 7) (VInt 0)
              (VInt 1000) (VBool false) (VBool false) VNone (VList [])
              (VBool true) (VList [VInt 1]) (VInt 42))
    as (_ & Hdel & _).
  destruct (assertion_fails_iff deletions fresh (VInt 7) (VInt 0)
              (VInt 1000) (VBool false) (VBool false) VNone (VList [])
              (VBool true) (VList [VInt 1]) (VInt 42))
    as (Hadd & _).
  split.
  - apply Hdel. reflexivity.
  - apply Hadd. split; [reflexivity|].
    intros (s & Hst & _). vm_compute in Hst. discriminate Hst.
Defined.

Lemma error_recognition_is_nested_witness :
  fst (get_participant_properties (stub (always invalid_survey)) (VInt 7)
         (VInt 42) fresh)
  = Raise (LimeSurveyError "get_participant_properties"
             (VStr "Error: Invalid survey ID"))
  /\ fst (get_summary (stub (always invalid_survey)) (VInt 7) fresh)
     = Raise (LimeSurveyError "get_summary"
                (VStr "Error: Invalid survey ID")).
Proof.
  destruct (error_recognition_is_nested invalid_survey fresh (VInt 7)
              (VInt 0) (VInt 1000) (VBool false) (VBool false) VNone
              (VList []) (VBool true) (VList [VInt 1]) (VInt 42)
              "delete_participants" (VStr "Error: Invalid survey ID"))
    as [Hget Hsum].
  split.
  - apply Hget. reflexivity.
  - apply Hsum. right. left. reflexivity.
Defined.

(** ** Statuses off the lists *)

(** X10: only a string can be on a list of error strings.  A dict whose
    ["status"] is anything else ([None], a number, a list, ...) fails the
    assert of [add_participants] and is returned as a result by
    [delete_participants] and [get_participant_properties], while
    [get_summary] and [list_participants] raise [LimeSurveyError] with that
    value. *)
Theorem non_string_status_is_unlisted
    (d : gmap string value) (status : value) (self : _Token call_log)
    (survey_id start limit ignore_token_used attributes conditions
       participant_data create_token_key tokens token_id : value) :
  d !! "status" = Some status ->
  (forall s, status <> VStr s) ->
  fst (add_participants (stub (always (VDict d))) survey_id
         participant_data create_token_key self) = Raise AssertionError
  /\ fst (delete_participants (stub (always (VDict d))) survey_id tokens
            self) = Return (VDict d)
  /\ fst (get_participant_properties (stub (always (VDict d))) survey_id
            token_id self) = Return (VDict d)
  /\ fst (get_summary (stub (always (VDict d))) survey_id self)
     = Raise (LimeSurveyError "get_summary" status)
  /\ fst (list_participants (stub (always (VDict d))) survey_id start limit
            ignore_token_used attributes conditions self)
     = Raise (LimeSurveyError "list_participants" status).
Proof.
  intros Hst Hnot.
  assert (Hunlisted : forall l, listed l status = false).
  { intros l. apply not_listed_spec. intros (s & -> & _).
    exact (Hnot s eq_refl). }
  pose proof (invoke_always (VDict d)
    (AddParticipants survey_id participant_data create_token_key) self)
    as Hadd.
  pose proof (invoke_always (VDict d)
    (DeleteParticipants survey_id tokens) self) as Hdel.
  pose proof (invoke_always (VDict d)
    (GetParticipantProperties survey_id token_id) self) as Hget.
  pose proof (invoke_always (VDict d) (GetSummary survey_id) self) as Hsum.
  pose proof (invoke_always (VDict d)
    (ListParticipants survey_id start limit ignore_token_used attributes
       conditions) self) as Hlist.
  cbn [invoke] in Hadd, Hdel, Hget, Hsum, Hlist.
  rewrite Hadd, Hdel, Hget, Hsum, Hlist.
  unfold verdict. cbn [status_of error_messages method_name asserted_shape].
  rewrite Hst, !Hunlisted. repeat split.
Qed.

Lemma non_string_status_is_unlisted_witness :
  fst (add_participants (stub (always (VDict {[ "status" := VNone ]})))
         (VInt 7) (VList []) (VBool true) fresh) = Raise AssertionError
  /\ fst (delete_participants
            (stub (always (VDict {[ "status" := VNone ]})))
            (VInt 7) (VList [VInt 1]) fresh)
     = Return (VDict {[ "status" := VNone ]})
  /\ fst (get_summary (stub (always (VDict {[ "status" := VNone ]})))
            (VInt 7) fresh)
     = Raise (LimeSurveyError "get_summary" VNone).
Proof.
  assert (Hst : ({[ "status" := VNone ]} : gmap string value) !! "status"
                = Some VNone) by reflexivity.
  assert (Hnot : forall s, VNone <> VStr s) by (intros s; discriminate).
  destruct (non_string_status_is_unlisted {[ "status" := VNone ]} VNone
              fresh (VInt 7) (VInt 0) (VInt 1000) (VBool false)
              (VBool false) VNone (VList []) (VBool true) (VList [VInt 1])
              (VInt 42) Hst Hnot)
    as (Hadd & Hdel & _ & Hsum & _).
  split; [exact Hadd|]. split; [exact Hdel | exact Hsum].
Defined.

(** X11: the three lists of error strings agree on two strings only.  A
    response makes [add_participants], [delete_participants] and
    [get_participant_properties] all raise [LimeSurveyError] exactly when
    its status is "Error: Invalid survey ID" or "No permission"; the missing
    token table is spelt "No token table" in the first list and "Error: No
    token table" in the other two. *)
Theorem statuses_listed_by_all
    (response : value) (self : _Token call_log)
    (survey_id participant_data create_token_key tokens token_id : value) :
  ((exists method status,
       fst (add_participants (stub (always response)) survey_id
              participant_data create_token_key self)
       = Raise (LimeSurveyError method status))
   /\ (exists method status,
         fst (delete_participants (stub (always response)) survey_id tokens
                self)
         = Raise (LimeSurveyError method status))
   /\ (exists method status,
         fst (get_participant_properties (stub (always response)) survey_id
                token_id self)
         = Raise (LimeSurveyError method status)))
  <-> status_of response = Some (VStr "Error: Invalid survey ID")
      \/ status_of response = Some (VStr "No permission").
Proof.
  pose proof (invoke_always response
    (AddParticipants survey_id participant_data create_token_key) self)
    as Hadd.
  pose proof (invoke_always response
    (DeleteParticipants survey_id tokens) self) as Hdel.
  pose proof (invoke_always response
    (GetParticipantProperties survey_id token_id) self) as Hget.
  cbn [invoke] in Hadd, Hdel, Hget. rewrite Hadd, Hdel, Hget.
  split.
  - intros ((m1 & st1 & H1) & (m2 & st2 & H2) & _).
    apply (verdict_raises_iff
             (AddParticipants survey_id participant_data create_token_key)
             _ response m1 st1 eq_refl) in H1 as (_ & Hst1 & Hin1).
    apply (verdict_raises_iff (DeleteParticipants survey_id tokens)
             _ response m2 st2 eq_refl) in H2 as (_ & Hst2 & Hin2).
    rewrite Hst1 in Hst2. injection Hst2 as <-.
    apply listed_spec in Hin1 as (s & -> & Hin1).
    apply listed_spec in Hin2 as (s' & [= <-] & Hin2).
    rewrite Hst1. simpl in Hin1, Hin2.
    destruct Hin1 as [<-|[<-|[<-|[]]]]; auto.
    destruct Hin2 as [H|[H|[H|[H|[]]]]]; discriminate H.
  - intros Hst.
    assert (exists s, status_of response = Some (VStr s)
              /\ (s = "Error: Invalid survey ID" \/ s = "No permission"))
      as (s & Hs & Hin) by (destruct Hst; eauto).
    split; [|split]; eexists; exists (VStr s);
      [ apply (verdict_raises_iff
                 (AddParticipants survey_id participant_data
                    create_token_key) _ response _ _ eq_refl)
      | apply (verdict_raises_iff (DeleteParticipants survey_id tokens)
                 _ response _ _ eq_refl)
      | apply (verdict_raises_iff
                 (GetParticipantProperties survey_id token_id)
                 _ response _ _ eq_refl) ];
      (split; [reflexivity|]); (split; [exact Hs|]);
      apply listed_spec; exists s; (split; [reflexivity|]);
      destruct Hin as [-> | ->]; simpl; auto 10.
Qed.

Lemma statuses_listed_by_all_witness :
  (exists method status,
      fst (add_participants (stub (always invalid_survey)) (VInt 7)
             (VList []) (VBool true) fresh)
      = Raise (LimeSurveyError method status))
  /\ (exists method status,
        fst (delete_participants (stub (always invalid_survey)) (VInt 7)
               (VList [VInt 1]) fresh)
        = Raise (LimeSurveyError method status))
  /\ (exists method status,
        fst (get_participant_properties (stub (always invalid_survey))
               (VInt 7) (VInt 42) fresh)
        = Raise (LimeSurveyError method status)).
Proof.
  apply (statuses_listed_by_all invalid_survey fresh (VInt 7) (VList [])
           (VBool true) (VList [VInt 1]) (VInt 42)).
  left. reflexivity.
Defined.

(** ** Arguments and outcome *)

(** X12: no method checks its arguments or matches the response against
    them: two calls of the same method that get the same response end the
    same way, whatever their arguments and whatever client they run on. *)
Theorem outcome_depends_on_response_only
    (response : value) (op op' : operation) (self self' : _Token call_log) :
  method_name op = method_name op' ->
  fst (invoke (stub (always response)) op self)
  = fst (invoke (stub (always response)) op' self').
Proof.
  intros Hname. rewrite !invoke_always.
  destruct op, op'; try discriminate Hname; reflexivity.
Qed.

Lemma outcome_depends_on_response_only_witness :
  fst (delete_participants (stub (always deletions)) (VInt 7)
         (VList [VInt 1; VInt 2; VInt 3]) fresh)
  = fst (delete_participants (stub (always deletions)) VNone
           (VStr "not a list") (__init__ (MkApi VNone []))).
Proof.
  exact (outcome_depends_on_response_only deletions
           (DeleteParticipants (VInt 7) (VList [VInt 1; VInt 2; VInt 3]))
           (DeleteParticipants VNone (VStr "not a list"))
           fresh (__init__ (MkApi VNone [])) eq_refl).
Defined.
